(** * Masil user web app: single-active-session enforcement

    A shallow embedding of the login handler ([LoginForm.handleLogin]),
    the route guard ([ProtectedRoute], with its [validateSession] effect)
    and the logout handler ([AppContent.handleLogout]) of the user web app,
    together with the external collaborators they talk to: the hosted
    authentication service, the [users] table, the session-mint HTTP
    endpoint, and the browser (local storage, router, alert box).

    Every asynchronous call of the JavaScript source is a step of a state
    monad over [World]; a run of a handler is the sequence of its awaited
    calls, executed without interleaving. *)

From Stdlib Require Import Ascii String.
From stdpp Require Import base strings gmap list.

Module Masil.

(** ** Data *)

(** [session.user.id], [user.id] *)
Record User := { user_id : string }.

(** The session object handed out by [supabase.auth]. *)
Record Session := { user : User }.

(** A row of the [users] table, restricted to the columns the client reads:
    [role] and the nullable [latest_session_id]. *)
Record UserRow := { role : string; latest_session_id : option string }.

(** [{ error_description, message }] of an authentication error. *)
Record AuthError := { error_description : option string; message : string }.

(** [{ data: { user }, error }] of [signInWithPassword]. *)
Record SignInResponse := { data_user : option User; error : option AuthError }.

(** [{ data, error }] of [from('users').select(..).eq('id', ..).single()]. *)
Record SingleResponse := { data : option UserRow; select_error : option string }.

(** Outcome of [await fetch(..)]: the promise rejects (network failure), or
    it resolves to a response whose [ok] flag tells a 2xx status from any
    other. *)
Inductive FetchResult :=
| FetchRejected
| FetchResponse (ok : bool).

(** Condition of the session-mint API as seen from the browser. *)
Inductive ApiStatus :=
| ApiUnreachable   (* the request cannot be delivered: [fetch] rejects *)
| ApiFailing       (* the server answers with a non-success status *)
| ApiHealthy.

(** Requests that leave the browser, in the order they are issued. *)
Inductive Call :=
| CSignInWithPassword (phone password : string)
| CSignOut
| CUpdateSession (uid session_id : string)
| CSelectUsers (columns uid : string).

(** Pages of the application and what a component renders. *)
Inductive Page := HomePage | AdminPage | LoginPage.

Inductive Element :=
| LoadingText              (* the "checking session" paragraph *)
| ShowPage (p : Page)
| NavigateTo (to : string) (* <Navigate to=.. replace /> *)
| Nothing.

#[global] Instance User_eq_dec : EqDecision User.
Proof. solve_decision. Defined.
#[global] Instance Session_eq_dec : EqDecision Session.
Proof. solve_decision. Defined.
#[global] Instance Call_eq_dec : EqDecision Call.
Proof. solve_decision. Defined.
#[global] Instance Page_eq_dec : EqDecision Page.
Proof. solve_decision. Defined.
#[global] Instance Element_eq_dec : EqDecision Element.
Proof. solve_decision. Defined.

(** ** The world a handler runs in *)

Record World := mkWorld {
  (* system of record *)
  users : gmap string UserRow;          (* the [users] table, keyed by id *)
  users_readable : bool;                (* does a select on it get an answer *)
  (* authentication collaborator *)
  accounts : gmap string (string * string); (* phone ↦ (password, user id) *)
  auth_session : option Session;        (* the session [supabase.auth] holds *)
  (* session-mint endpoint *)
  api : ApiStatus;
  (* browser *)
  localStorage : gmap string string;
  location : string;                    (* current router path *)
  alerts : list string;                 (* messages shown with [alert] *)
  loginForm_loading : bool;             (* [loading] state of the login form *)
  calls : list Call;                    (* requests issued so far *)
}.

Definition set_users (db : gmap string UserRow) (w : World) : World :=
  mkWorld db (users_readable w) (accounts w) (auth_session w) (api w)
          (localStorage w) (location w) (alerts w) (loginForm_loading w) (calls w).

Definition set_auth_session (s : option Session) (w : World) : World :=
  mkWorld (users w) (users_readable w) (accounts w) s (api w)
          (localStorage w) (location w) (alerts w) (loginForm_loading w) (calls w).

Definition set_localStorage (ls : gmap string string) (w : World) : World :=
  mkWorld (users w) (users_readable w) (accounts w) (auth_session w) (api w)
          ls (location w) (alerts w) (loginForm_loading w) (calls w).

Definition set_location (p : string) (w : World) : World :=
  mkWorld (users w) (users_readable w) (accounts w) (auth_session w) (api w)
          (localStorage w) p (alerts w) (loginForm_loading w) (calls w).

Definition set_alerts (a : list string) (w : World) : World :=
  mkWorld (users w) (users_readable w) (accounts w) (auth_session w) (api w)
          (localStorage w) (location w) a (loginForm_loading w) (calls w).

Definition set_loginForm_loading (b : bool) (w : World) : World :=
  mkWorld (users w) (users_readable w) (accounts w) (auth_session w) (api w)
          (localStorage w) (location w) (alerts w) b (calls w).

Definition set_calls (c : list Call) (w : World) : World :=
  mkWorld (users w) (users_readable w) (accounts w) (auth_session w) (api w)
          (localStorage w) (location w) (alerts w) (loginForm_loading w) c.

(** ** A state monad over the world *)

Definition IO (A : Type) : Type := World → A * World.

Definition io_ret {A} (a : A) : IO A := λ w, (a, w).

Definition io_bind {A B} (m : IO A) (k : A → IO B) : IO B :=
  λ w, let (a, w') := m w in k a w'.

Declare Scope io_scope.
Delimit Scope io_scope with io.
Notation "x <- m ;; k" := (io_bind m (λ x, k))
  (at level 100, m at next level, right associativity) : io_scope.
Notation "m ;;; k" := (io_bind m (λ _, k))
  (at level 100, right associativity) : io_scope.
Local Open Scope io_scope.

Definition modify (f : World → World) : IO unit := λ w, (tt, f w).

Definition issue (c : Call) : IO unit :=
  modify (λ w, set_calls (calls w ++ [c]) w).

(** ** Collaborators *)

(** The key of the single client-side slot. *)
Definition session_key : string := "session_id".

Definition localStorage_getItem (k : string) : IO (option string) :=
  λ w, (localStorage w !! k, w).

Definition localStorage_setItem (k v : string) : IO unit :=
  modify (λ w, set_localStorage (<[k := v]> (localStorage w)) w).

Definition localStorage_removeItem (k : string) : IO unit :=
  modify (λ w, set_localStorage (delete k (localStorage w)) w).

Definition alert (msg : string) : IO unit :=
  modify (λ w, set_alerts (alerts w ++ [msg]) w).

Definition navigate (path : string) : IO unit :=
  modify (set_location path).

Definition setLoading (b : bool) : IO unit :=
  modify (set_loginForm_loading b).

Definition invalid_credentials : AuthError :=
  {| error_description := None; message := "Invalid login credentials" |}.

(** [supabase.auth.signInWithPassword]: the credential check.  On success
    the authentication service establishes a session for the user. *)
Definition signInWithPassword (phone password : string) : IO SignInResponse :=
  issue (CSignInWithPassword phone password) ;;;
  λ w, match accounts w !! phone with
       | Some (pw, uid) =>
           if String.eqb pw password
           then let u := {| user_id := uid |} in
                ({| data_user := Some u; error := None |},
                 set_auth_session (Some {| user := u |}) w)
           else ({| data_user := None; error := Some invalid_credentials |}, w)
       | None => ({| data_user := None; error := Some invalid_credentials |}, w)
       end.

(** [supabase.auth.signOut]: the held session is dropped. *)
Definition signOut : IO unit :=
  issue CSignOut ;;; modify (set_auth_session None).

(** [supabase.from('users').select(columns).eq('id', uid).single()]: exactly
    one row is the data; no row, or no answer, is an error with null data. *)
Definition select_single (columns uid : string) : IO SingleResponse :=
  issue (CSelectUsers columns uid) ;;;
  λ w, (if users_readable w
        then match users w !! uid with
             | Some row => {| data := Some row; select_error := None |}
             | None => {| data := None;
                          select_error := Some "JSON object requested, multiple (or no) rows returned" |}
             end
        else {| data := None; select_error := Some "Failed to fetch" |}, w).

(** Modelled from the spec: the session-mint endpoint
    [POST /api/users/update-session], whose server code is not among the
    sources.  It accepts [{ user_id, session_id }] and persists the mapping:
    the token becomes the latest session identifier of that user's record.
    A request for a user without a record persists nothing and is answered
    with a non-success status. *)
Definition update_session_endpoint (uid sid : string) (db : gmap string UserRow)
  : gmap string UserRow * bool :=
  match db !! uid with
  | Some row => (<[uid := {| role := role row; latest_session_id := Some sid |}]> db, true)
  | None => (db, false)
  end.

(** [fetch('http://localhost:8000/api/users/update-session', { method: 'POST', .. })] *)
Definition fetch_update_session (uid sid : string) : IO FetchResult :=
  issue (CUpdateSession uid sid) ;;;
  λ w, match api w with
       | ApiUnreachable => (FetchRejected, w)
       | ApiFailing => (FetchResponse false, w)
       | ApiHealthy =>
           let (db, ok) := update_session_endpoint uid sid (users w) in
           (FetchResponse ok, set_users db w)
       end.

(** ** The login form *)

(** [c] is one of the characters 0..9. *)
Definition is_digit (c : ascii) : bool :=
  let n := nat_of_ascii c in (48 <=? n)%nat && (n <=? 57)%nat.

(** [s.replace(/[^0-9]/g, '')] *)
Fixpoint strip_non_digits (s : string) : string :=
  match s with
  | EmptyString => EmptyString
  | String c rest =>
      if is_digit c then String c (strip_non_digits rest)
      else strip_non_digits rest
  end.

(** [`+82${p.startsWith('0') ? p.substring(1) : p}`] *)
Definition format_phone (processedPhone : string) : string :=
  "+82" +:+ match processedPhone with
            | String "0"%char rest => rest
            | _ => processedPhone
            end.

(** [error.error_description || error.message]: the description when it is
    a non-empty string, the message otherwise. *)
Definition error_text (e : AuthError) : string :=
  match error_description e with
  | Some d => if String.eqb d "" then message e else d
  | None => message e
  end.

Definition session_error_text : string :=
  "세션 처리 중 오류가 발생했습니다. 다시 로그인해주세요.".

Definition role_error_prefix : string := "역할 정보 조회 실패: ".

(** [LoginForm.handleLogin], for the form fields [phone] and [password];
    [randomUUID] is the value [crypto.randomUUID()] returns in this run. *)
Definition handleLogin (phone password randomUUID : string) : IO unit :=
  setLoading true ;;;
  let processedPhone := strip_non_digits phone in
  let formattedPhone := format_phone processedPhone in
  r <- signInWithPassword formattedPhone password ;;
  match error r with
  | Some e => alert (error_text e) ;;; setLoading false
  | None =>
      match data_user r with
      | Some u =>
          (* try *)
          let newSessionId := randomUUID in
          res <- fetch_update_session (user_id u) newSessionId ;;
          match res with
          | FetchRejected =>
              (* catch *)
              alert session_error_text ;;;
              signOut ;;;
              setLoading false     (* return *)
          | FetchResponse _ =>
              localStorage_setItem session_key newSessionId ;;;
              q <- select_single "role" (user_id u) ;;
              match select_error q with
              | Some profileError =>
                  alert (role_error_prefix +:+ profileError) ;;;
                  navigate "/"
              | None =>
                  match data q with
                  | Some profile =>
                      if String.eqb (role profile) "ADMIN"
                      then navigate "/admin"
                      else navigate "/"
                  | None => io_ret tt
                  end
              end ;;;
              setLoading false
          end
      | None => setLoading false
      end
  end.

(** ** The route guard *)

(** The two [useState] cells of [ProtectedRoute]. *)
Record RouteState := { isValidSession : bool; loading : bool }.

Definition initial_state : RouteState :=
  {| isValidSession := false; loading := true |}.

Definition setIsValidSession (b : bool) (st : RouteState) : RouteState :=
  {| isValidSession := b; loading := loading st |}.

Definition setRouteLoading (b : bool) (st : RouteState) : RouteState :=
  {| isValidSession := isValidSession st; loading := b |}.

(** The comparison [profile && profile.latest_session_id === localSessionId]
    and the role check under it: the value given to [setIsValidSession]. *)
Definition decision (adminOnly : bool) (profile : option UserRow)
    (localSessionId : option string) : bool :=
  match profile with
  | Some p =>
      if decide (latest_session_id p = localSessionId)
      then if adminOnly && negb (String.eqb (role p) "ADMIN") then false else true
      else false
  | None => false
  end.

(** [validateSession], the asynchronous body of the effect. *)
Definition validateSession (adminOnly : bool) (session : Session)
    (st : RouteState) : IO RouteState :=
  q <- select_single "role, latest_session_id" (user_id (user session)) ;;
  let profile := data q in
  localSessionId <- localStorage_getItem session_key ;;
  io_ret (setRouteLoading false
            (setIsValidSession (decision adminOnly profile localSessionId) st)).

(** The [useEffect] callback, run on mount and whenever [session] or
    [adminOnly] change. *)
Definition effect (adminOnly : bool) (session : option Session)
    (st : RouteState) : IO RouteState :=
  match session with
  | None => io_ret (setRouteLoading false st)
  | Some s => validateSession adminOnly s st
  end.

(** The render body of [ProtectedRoute]. *)
Definition render (children : Element) (st : RouteState) : IO Element :=
  if loading st then io_ret LoadingText
  else if isValidSession st then io_ret children
  else signOut ;;; io_ret (NavigateTo "/login").

(** A rendered [<Navigate to=.. replace />] moves the router there. *)
Definition commit (e : Element) : IO Element :=
  match e with
  | NavigateTo to => navigate to ;;; io_ret e
  | _ => io_ret e
  end.

(** One validation by a mounted guard in state [st]: the effect runs to
    completion and the component renders with the state it has set. *)
Definition revalidate (children : Element) (adminOnly : bool)
    (session : option Session) (st : RouteState) : IO (Element * RouteState) :=
  st' <- effect adminOnly session st ;;
  e <- render children st' ;;
  e' <- commit e ;;
  io_ret (e', st').

(** A freshly mounted guard: first render (loading), then the effect and
    the render that follows it. *)
Definition ProtectedRoute (children : Element) (adminOnly : bool)
    (session : option Session) : IO Element :=
  _first <- render children initial_state ;;
  r <- revalidate children adminOnly session initial_state ;;
  io_ret (fst r).

(** ** The application shell *)

(** [AppContent.handleLogout] *)
Definition handleLogout : IO unit :=
  signOut ;;;
  localStorage_removeItem session_key ;;;
  navigate "/login".

(** The [<Routes>] table at the current location.  The [session] state of
    [AppContent] follows the authentication service through
    [getSession] and [onAuthStateChange]. *)
Definition App : IO Element :=
  λ w,
    let session := auth_session w in
    if String.eqb (location w) "/login" then
      commit (match session with
              | None => ShowPage LoginPage
              | Some _ => NavigateTo "/"
              end) w
    else if String.eqb (location w) "/" then
      ProtectedRoute (ShowPage HomePage) false session w
    else if String.eqb (location w) "/admin" then
      ProtectedRoute (ShowPage AdminPage) true session w
    else (Nothing, w).

(** ** Sample data *)

Definition alice : User := {| user_id := "u-alice" |}.

Definition alice_session : Session := {| user := alice |}.

(** A world with one account and one user record, on the login page, with
    nothing shown and nothing requested so far. *)
Definition sample_world (r : string) (latest : option string) (readable : bool)
    (st : ApiStatus) (sess : option Session) (ls : gmap string string) : World :=
  mkWorld {[ "u-alice" := {| role := r; latest_session_id := latest |} ]} readable
          {[ "+821012345678" := ("secret", "u-alice") ]} sess st ls
          "/login" [] false [].

(** Device A after device B has logged in: A still caches [T1] while the
    record holds [T2]. *)
Definition superseded_world : World :=
  sample_world "USER" (Some "T2") true ApiHealthy (Some alice_session)
               {[ "session_id" := "T1" ]}.

(** A signed-in user whose record never had a token and whose browser
    caches none. *)
Definition never_minted_world : World :=
  sample_world "USER" None true ApiHealthy (Some alice_session) ∅.

(** The mint API answers every request with a server error. *)
Definition failing_api_world : World :=
  sample_world "USER" (Some "T0") true ApiFailing None ∅.

(** An administrator's account while reads of the [users] table get no
    answer. *)
Definition unreadable_world : World :=
  sample_world "ADMIN" None false ApiHealthy None ∅.

(** The decision a guard takes for [session] in [w]. *)
Definition guard_decision (adminOnly : bool) (session : option Session)
    (w : World) : bool :=
  match session with
  | None => false
  | Some s =>
      decision adminOnly
        (if users_readable w then users w !! user_id (user s) else None)
        (localStorage w !! session_key)
  end.

(** ** The form fields and the application state *)

(** [onChange] of the phone input:
    [setPhone(e.target.value.replace(/[^0-9]/g, ''))]. *)
Definition onPhoneChange (value : string) : string := strip_non_digits value.

(** Every character of [s] is one of 0..9. *)
Fixpoint digits_only (s : string) : bool :=
  match s with
  | EmptyString => true
  | String c rest => is_digit c && digits_only rest
  end.

(** The two [useState] cells of [AppContent]. *)
Record AppState := { app_session : option Session; app_loading : bool }.

Definition AppContent_initial : AppState :=
  {| app_session := None; app_loading := true |}.

(** [supabase.auth.getSession()] *)
Definition getSession : IO (option Session) := λ w, (auth_session w, w).

(** The mount effect of [AppContent]:
    [getSession().then(({ data: { session } }) => { setSession(session); setLoading(false) })]. *)
Definition AppContent_effect (st : AppState) : IO AppState :=
  session <- getSession ;;
  io_ret {| app_session := session; app_loading := false |}.

(** The callback given to [onAuthStateChange]: [setSession(session)]. *)
Definition onAuthStateChange (session : option Session) (st : AppState) : AppState :=
  {| app_session := session; app_loading := app_loading st |}.

(** The [<Routes>] table for a given [session] prop. *)
Definition Routes (session : option Session) : IO Element :=
  λ w,
    if String.eqb (location w) "/login" then
      commit (match session with
              | None => ShowPage LoginPage
              | Some _ => NavigateTo "/"
              end) w
    else if String.eqb (location w) "/" then
      ProtectedRoute (ShowPage HomePage) false session w
    else if String.eqb (location w) "/admin" then
      ProtectedRoute (ShowPage AdminPage) true session w
    else (Nothing, w).

(** What [AppContent] renders: the loading text, or the header (with the
    logout button when a session is known) above the matched route. *)
Inductive AppView :=
| AppLoading
| AppShell (logout_button : bool) (main : Element).

Definition AppContent_render (st : AppState) : IO AppView :=
  if app_loading st then io_ret AppLoading
  else main <- Routes (app_session st) ;;
       io_ret (AppShell (bool_decide (is_Some (app_session st))) main).

(** Page load: first render, mount effect, render again. *)
Definition AppContent_start : IO (AppView * AppView) :=
  first <- AppContent_render AppContent_initial ;;
  st <- AppContent_effect AppContent_initial ;;
  second <- AppContent_render st ;;
  io_ret (first, second).

(** Another browser talking to the same backend: device [b] sees the
    [users] table as device [a] left it. *)
Definition same_backend (a b : World) : World := set_users (users a) b.

(** * Properties *)

Ltac io_unfold :=
  unfold handleLogin, handleLogout, ProtectedRoute, revalidate, effect,
    validateSession, render, commit, signInWithPassword, signOut,
    select_single, fetch_update_session, update_session_endpoint,
    localStorage_getItem, localStorage_setItem, localStorage_removeItem,
    alert, navigate, setLoading, issue, modify, io_bind, io_ret in *.

Ltac io_run := io_unfold; simpl in *.

(** ** The validator's decision *)

Lemma decision_no_profile adminOnly l : decision adminOnly None l = false.
Proof. reflexivity. Qed.

Lemma decision_mismatch adminOnly p l :
  latest_session_id p ≠ l → decision adminOnly (Some p) l = false.
Proof. intros Hne. unfold decision. by rewrite decide_False. Qed.

Lemma decision_not_admin p l :
  role p ≠ "ADMIN" → decision true (Some p) l = false.
Proof.
  intros Hrole. unfold decision. case_decide; [|done].
  apply String.eqb_neq in Hrole. by rewrite Hrole.
Qed.

Lemma decision_match_open p :
  decision false (Some p) (latest_session_id p) = true.
Proof. unfold decision. by rewrite decide_True. Qed.

Lemma decision_match_admin adminOnly p :
  role p = "ADMIN" → decision adminOnly (Some p) (latest_session_id p) = true.
Proof.
  intros Hrole. unfold decision. rewrite decide_True by done.
  rewrite Hrole. by destruct adminOnly.
Qed.

(** What [validateSession] computes and what it leaves behind: one select
    is issued, the decision is taken on the answer, nothing else moves. *)
Lemma validateSession_run adminOnly s st w :
  validateSession adminOnly s st w =
    ({| isValidSession :=
          decision adminOnly
            (if users_readable w then users w !! user_id (user s) else None)
            (localStorage w !! session_key);
        loading := false |},
     set_calls (calls w ++ [CSelectUsers "role, latest_session_id" (user_id (user s))]) w).
Proof.
  io_run. destruct (users_readable w); [destruct (users w !! _)|]; reflexivity.
Qed.

(** The guard's render on a settled state. *)
Lemma render_invalid children w :
  render children {| isValidSession := false; loading := false |} w =
    (NavigateTo "/login", set_auth_session None (set_calls (calls w ++ [CSignOut]) w)).
Proof. reflexivity. Qed.

Lemma render_valid children w :
  render children {| isValidSession := true; loading := false |} w = (children, w).
Proof. reflexivity. Qed.

Lemma commit_fst e w : (commit e w).1 = e.
Proof. by destruct e. Qed.

Lemma commit_frame e w :
  users (commit e w).2 = users w
  ∧ users_readable (commit e w).2 = users_readable w
  ∧ auth_session (commit e w).2 = auth_session w
  ∧ localStorage (commit e w).2 = localStorage w
  ∧ calls (commit e w).2 = calls w.
Proof. by destruct e. Qed.

(** One validation with a session, start to finish. *)
Lemma revalidate_run children adminOnly s st w :
  revalidate children adminOnly (Some s) st w =
    let w1 := set_calls (calls w ++
                [CSelectUsers "role, latest_session_id" (user_id (user s))]) w in
    if guard_decision adminOnly (Some s) w
    then ((commit children w1).1,
          {| isValidSession := true; loading := false |},
          (commit children w1).2)
    else (NavigateTo "/login",
          {| isValidSession := false; loading := false |},
          set_location "/login"
            (set_auth_session None (set_calls (calls w1 ++ [CSignOut]) w1))).
Proof.
  unfold revalidate, effect, guard_decision, io_bind at 1.
  rewrite validateSession_run. destruct (decision _ _ _).
  - unfold io_bind at 1. rewrite render_valid.
    unfold io_bind, io_ret. by destruct (commit children _).
  - unfold io_bind at 1. by rewrite render_invalid.
Qed.

(** ** Validation with a superseded token *)

(** C2. Whenever the token cached in the browser differs from the current
    token of the user's record, a validation ends unauthorized: the guard
    settles on an invalid session, signs out of the authentication service
    (no session is held afterwards) and redirects to [/login]. *)
Theorem token_mismatch_signs_out children adminOnly s st w row :
  users w !! user_id (user s) = Some row →
  latest_session_id row ≠ localStorage w !! session_key →
  ∃ w', revalidate children adminOnly (Some s) st w =
          (NavigateTo "/login", {| isValidSession := false; loading := false |}, w')
        ∧ auth_session w' = None
        ∧ location w' = "/login"
        ∧ calls w' = calls w ++
            [CSelectUsers "role, latest_session_id" (user_id (user s)); CSignOut].
Proof.
  intros Hrow Hne.
  assert (Hd : decision adminOnly
                 (if users_readable w then users w !! user_id (user s) else None)
                 (localStorage w !! session_key) = false).
  { destruct (users_readable w); [|done]. rewrite Hrow. by apply decision_mismatch. }
  unfold revalidate, effect, io_bind at 1. rewrite validateSession_run, Hd.
  unfold io_bind at 1. rewrite render_invalid. simpl.
  eexists; split; [reflexivity|]. simpl. by rewrite <- app_assoc.
Qed.

Lemma token_mismatch_signs_out_witness :
  users superseded_world !! user_id (user alice_session)
    = Some {| role := "USER"; latest_session_id := Some "T2" |}
  ∧ Some "T2" ≠ localStorage superseded_world !! session_key
  ∧ ∃ w', revalidate (ShowPage HomePage) false (Some alice_session)
            initial_state superseded_world =
            (NavigateTo "/login", {| isValidSession := false; loading := false |}, w')
          ∧ auth_session w' = None
          ∧ location w' = "/login"
          ∧ calls w' = calls superseded_world ++
              [CSelectUsers "role, latest_session_id" (user_id (user alice_session)); CSignOut].
Proof.
  split; [reflexivity|]. split; [vm_compute; discriminate|].
  apply (token_mismatch_signs_out (ShowPage HomePage) false alice_session initial_state
           superseded_world {| role := "USER"; latest_session_id := Some "T2" |}).
  - reflexivity.
  - vm_compute; discriminate.
Defined.

(** ** The administrator gate *)

(** C6. On a route that requires the administrator role, a fetched role
    other than [ADMIN] gives an unauthorized result whatever the cached
    token is, equal to the record's current token or not. *)
Theorem admin_route_rejects_other_roles children s st w row :
  users w !! user_id (user s) = Some row →
  role row ≠ "ADMIN" →
  (∀ cached, decision true (Some row) cached = false)
  ∧ ∃ w', revalidate children true (Some s) st w =
            (NavigateTo "/login", {| isValidSession := false; loading := false |}, w')
          ∧ auth_session w' = None.
Proof.
  intros Hrow Hrole. split; [intros; by apply decision_not_admin|].
  unfold revalidate, effect, io_bind at 1. rewrite validateSession_run.
  replace (decision true _ _) with false.
  - unfold io_bind at 1. rewrite render_invalid. simpl. by eexists.
  - destruct (users_readable w); [|done]. rewrite Hrow.
    symmetry. by apply decision_not_admin.
Qed.

Lemma admin_route_rejects_other_roles_witness :
  (∀ cached, decision true (Some {| role := "USER"; latest_session_id := None |}) cached = false)
  ∧ ∃ w', revalidate (ShowPage AdminPage) true (Some alice_session) initial_state
            never_minted_world =
            (NavigateTo "/login", {| isValidSession := false; loading := false |}, w')
          ∧ auth_session w' = None.
Proof.
  apply (admin_route_rejects_other_roles (ShowPage AdminPage) alice_session initial_state
           never_minted_world {| role := "USER"; latest_session_id := None |}).
  - reflexivity.
  - vm_compute; discriminate.
Defined.

(** ** No session at all *)

(** C7. A guard mounted while the authentication service holds no session
    and the browser caches no token is unauthorized at once: its effect
    returns without issuing any request (no read of the [users] table), and
    the render that follows redirects to [/login]; the only request of the
    whole visit is the sign-out of that render. *)
Theorem no_session_fails_fast children adminOnly w :
  auth_session w = None →
  localStorage w !! session_key = None →
  effect adminOnly (auth_session w) initial_state w =
    ({| isValidSession := false; loading := false |}, w)
  ∧ ∃ w', ProtectedRoute children adminOnly (auth_session w) w = (NavigateTo "/login", w')
          ∧ calls w' = calls w ++ [CSignOut]
          ∧ users w' = users w.
Proof.
  intros Hs _. rewrite Hs. split; [reflexivity|].
  eexists. split; [reflexivity|]. by simpl.
Qed.

Lemma no_session_fails_fast_witness :
  let w := sample_world "USER" None true ApiHealthy None ∅ in
  effect false (auth_session w) initial_state w =
    ({| isValidSession := false; loading := false |}, w)
  ∧ ∃ w', ProtectedRoute (ShowPage HomePage) false (auth_session w) w = (NavigateTo "/login", w')
          ∧ calls w' = calls w ++ [CSignOut]
          ∧ users w' = users w.
Proof.
  apply (no_session_fails_fast (ShowPage HomePage) false
           (sample_world "USER" None true ApiHealthy None ∅)); reflexivity.
Defined.

(** The fast path does not look at the cached token. *)
Lemma effect_without_session adminOnly st w :
  effect adminOnly None st w = (setRouteLoading false st, w).
Proof. reflexivity. Qed.

(** ** Running the validator again *)

Lemma ProtectedRoute_run children adminOnly session w :
  ProtectedRoute children adminOnly session w =
    let w1 := match session with
              | None => w
              | Some s => set_calls (calls w ++
                            [CSelectUsers "role, latest_session_id" (user_id (user s))]) w
              end in
    if guard_decision adminOnly session w then commit children w1
    else (NavigateTo "/login",
          set_location "/login"
            (set_auth_session None (set_calls (calls w1 ++ [CSignOut]) w1))).
Proof.
  unfold ProtectedRoute, revalidate, io_bind at 1.
  change (render children initial_state w) with (LoadingText, w).
  cbv beta iota. unfold io_bind at 1.
  destruct session as [s|]; unfold effect, guard_decision.
  - unfold io_bind at 1. rewrite validateSession_run.
    destruct (decision _ _ _).
    + unfold io_bind at 1. rewrite render_valid.
      unfold io_bind, io_ret. by destruct (commit children _).
    + unfold io_bind at 1. by rewrite render_invalid.
  - reflexivity.
Qed.

(** C8. With the system of record and the cached token left as they are,
    validating twice in a row gives the same decision both times: for
    [validateSession] run twice on the same session, and for the guard
    mounted twice, the second time with whatever session the first visit
    left in the authentication service. *)
Theorem validation_idempotent children adminOnly s st w :
  let r1 := validateSession adminOnly s st w in
  let r2 := validateSession adminOnly s r1.1 r1.2 in
  let g1 := ProtectedRoute children adminOnly (auth_session w) w in
  let g2 := ProtectedRoute children adminOnly (auth_session g1.2) g1.2 in
  isValidSession r2.1 = isValidSession r1.1 ∧ g2.1 = g1.1.
Proof.
  cbv zeta. split.
  - by rewrite !validateSession_run.
  - rewrite (ProtectedRoute_run _ _ _ w). cbv zeta.
    set (w1 := match auth_session w with
               | None => w
               | Some s0 => set_calls (calls w ++
                   [CSelectUsers "role, latest_session_id" (user_id (user s0))]) w
               end).
    assert (users w1 = users w ∧ users_readable w1 = users_readable w
            ∧ auth_session w1 = auth_session w ∧ localStorage w1 = localStorage w)
      as (Hu1 & Hr1 & Ha1 & Hl1)
      by (subst w1; destruct (auth_session w) eqn:E; simpl; rewrite ?E; done).
    destruct (guard_decision adminOnly (auth_session w) w) eqn:Hd.
    + destruct (commit_frame children w1) as (Hu & Hr & Ha & Hl & _).
      rewrite ProtectedRoute_run. cbv zeta.
      assert (guard_decision adminOnly (auth_session (commit children w1).2)
                (commit children w1).2 = true) as ->.
      { rewrite <- Hd. unfold guard_decision.
        by rewrite Ha, Hu, Hr, Hl, Ha1, Hu1, Hr1, Hl1. }
      by rewrite !commit_fst.
    + reflexivity.
Qed.

(** ** Tokens that were never minted *)

(** C10 (as amended). A signed-in user whose record exists with an unset
    latest session identifier, and whose browser caches no token, passes
    the token comparison although no mint ever happened: the guard judges
    the session valid and shows the page, provided the route does not
    require the administrator role or the user's role is [ADMIN]. *)
Theorem null_tokens_compare_equal children adminOnly s st w row :
  users_readable w = true →
  users w !! user_id (user s) = Some row →
  latest_session_id row = None →
  localStorage w !! session_key = None →
  adminOnly = false ∨ role row = "ADMIN" →
  (revalidate children adminOnly (Some s) st w).1 =
    (children, {| isValidSession := true; loading := false |})
  ∧ auth_session (revalidate children adminOnly (Some s) st w).2 = auth_session w.
Proof.
  intros Hr Hrow Hnull Hls Hgate.
  rewrite revalidate_run. cbv zeta. unfold guard_decision.
  rewrite Hr, Hrow, Hls, <- Hnull.
  assert (decision adminOnly (Some row) (latest_session_id row) = true) as ->.
  { destruct Hgate as [-> | Hadm];
      [apply decision_match_open | by apply decision_match_admin]. }
  cbn [fst snd]. rewrite commit_fst. split; [done|].
  by destruct (commit_frame children
    (set_calls (calls w ++
       [CSelectUsers "role, latest_session_id" (user_id (user s))]) w))
    as (_ & _ & -> & _).
Qed.

Lemma null_tokens_compare_equal_witness :
  (revalidate (ShowPage HomePage) false (Some alice_session) initial_state
     never_minted_world).1 =
    (ShowPage HomePage, {| isValidSession := true; loading := false |})
  ∧ auth_session (revalidate (ShowPage HomePage) false (Some alice_session) initial_state
                    never_minted_world).2 = auth_session never_minted_world.
Proof.
  apply (null_tokens_compare_equal (ShowPage HomePage) false alice_session initial_state
           never_minted_world {| role := "USER"; latest_session_id := None |}).
  - reflexivity.
  - reflexivity.
  - reflexivity.
  - reflexivity.
  - left; reflexivity.
Defined.

(** C10 (as stated) fails on the administrator route: the same user, with
    the record's identifier unset and no cached token, is judged invalid
    there because the role is not [ADMIN]. *)
Lemma null_tokens_admin_route_invalid :
  users_readable never_minted_world = true
  ∧ users never_minted_world !! user_id (user alice_session)
      = Some {| role := "USER"; latest_session_id := None |}
  ∧ localStorage never_minted_world !! session_key = None
  ∧ auth_session never_minted_world = Some alice_session
  ∧ (revalidate (ShowPage AdminPage) true (Some alice_session) initial_state
       never_minted_world).1
      = (NavigateTo "/login", {| isValidSession := false; loading := false |}).
Proof. vm_compute. by repeat split. Qed.

(** ** What happens to the cached token *)

Lemma handleLogout_run w :
  handleLogout w =
    (tt, set_location "/login"
           (set_localStorage (delete session_key (localStorage w))
              (set_auth_session None (set_calls (calls w ++ [CSignOut]) w)))).
Proof. reflexivity. Qed.

(** Logout empties the slot. *)
Lemma handleLogout_clears_token w :
  localStorage (handleLogout w).2 !! session_key = None
  ∧ auth_session (handleLogout w).2 = None
  ∧ location (handleLogout w).2 = "/login".
Proof. rewrite handleLogout_run. simpl. by rewrite lookup_delete_eq. Qed.

(** The guard never writes local storage, whatever it decides. *)
Lemma revalidate_keeps_localStorage children adminOnly session st w :
  localStorage (revalidate children adminOnly session st w).2 = localStorage w.
Proof.
  unfold revalidate, io_bind at 1.
  assert (∃ d c, effect adminOnly session st w =
                   ({| isValidSession := d; loading := false |}, set_calls c w))
    as (d & c & ->).
  { destruct session; simpl.
    - rewrite validateSession_run. eauto.
    - exists (isValidSession st), (calls w). by destruct w. }
  unfold io_bind at 1. destruct d.
  - rewrite render_valid. unfold io_bind, io_ret.
    pose proof (commit_frame children (set_calls c w)) as (_ & _ & _ & Hl & _).
    by destruct (commit children _).
  - by rewrite render_invalid.
Qed.

(** C4. After a failed validation the cached token is still in the slot:
    device A, superseded by a login elsewhere, is signed out and sent to
    [/login] while its browser keeps [T1]. *)
Lemma validation_failure_keeps_cached_token :
  let r := revalidate (ShowPage HomePage) false (Some alice_session) initial_state
             superseded_world in
  r.1 = (NavigateTo "/login", {| isValidSession := false; loading := false |})
  ∧ auth_session r.2 = None
  ∧ localStorage r.2 !! session_key = Some "T1".
Proof. vm_compute. by repeat split. Qed.

(** ** Login *)

Lemma signInWithPassword_accepts phone password uid w :
  accounts w !! phone = Some (password, uid) →
  signInWithPassword phone password w =
    ({| data_user := Some {| user_id := uid |}; error := None |},
     set_auth_session (Some {| user := {| user_id := uid |} |})
       (set_calls (calls w ++ [CSignInWithPassword phone password]) w)).
Proof.
  intros Hacc. io_run. rewrite Hacc. by rewrite String.eqb_refl.
Qed.

(** A mint request is answered with success only by a healthy endpoint
    that found the user's record. *)
Lemma mint_success_inv uid sid w :
  (fetch_update_session uid sid w).1 = FetchResponse true →
  api w = ApiHealthy ∧ ∃ row, users w !! uid = Some row.
Proof.
  io_run. destruct (api w); try discriminate.
  destruct (users w !! uid); [eauto | discriminate].
Qed.

(** The login handler when the credentials are accepted and the mint
    request is answered with success: every part of the resulting world. *)
Lemma handleLogin_minted phone password randomUUID uid row w :
  accounts w !! format_phone (strip_non_digits phone) = Some (password, uid) →
  api w = ApiHealthy →
  users w !! uid = Some row →
  let w' := (handleLogin phone password randomUUID w).2 in
  users w' = <[uid := {| role := role row; latest_session_id := Some randomUUID |}]> (users w)
  ∧ users_readable w' = users_readable w
  ∧ auth_session w' = Some {| user := {| user_id := uid |} |}
  ∧ localStorage w' = <[session_key := randomUUID]> (localStorage w)
  ∧ calls w' = calls w ++
      [CSignInWithPassword (format_phone (strip_non_digits phone)) password;
       CUpdateSession uid randomUUID; CSelectUsers "role" uid]
  ∧ location w' =
      (if users_readable w && String.eqb (role row) "ADMIN" then "/admin" else "/")
  ∧ alerts w' =
      (if users_readable w then alerts w
       else alerts w ++ [role_error_prefix +:+ "Failed to fetch"]).
Proof.
  intros Hacc Hapi Hrow.
  destruct w as [db rd acc sess ap ls loc al ld cs]. io_run.
  rewrite Hacc. simpl. rewrite String.eqb_refl. simpl.
  subst ap. simpl. rewrite Hrow. simpl.
  rewrite lookup_insert_eq.
  destruct rd; simpl; [destruct (String.eqb (role row) "ADMIN")|]; simpl;
    by rewrite <- !app_assoc.
Qed.

(** C3. After a successful login (the credentials are accepted and the
    mint request is answered with success) the token recorded for the user
    in the system of record equals the token cached in local storage: both
    are the identifier generated in this login. *)
Theorem successful_login_tokens_agree phone password randomUUID uid w :
  accounts w !! format_phone (strip_non_digits phone) = Some (password, uid) →
  (fetch_update_session uid randomUUID w).1 = FetchResponse true →
  ∃ row, users (handleLogin phone password randomUUID w).2 !! uid = Some row
       ∧ latest_session_id row
           = localStorage (handleLogin phone password randomUUID w).2 !! session_key
       ∧ localStorage (handleLogin phone password randomUUID w).2 !! session_key
           = Some randomUUID.
Proof.
  intros Hacc Hmint. apply mint_success_inv in Hmint as (Hapi & row & Hrow).
  destruct (handleLogin_minted phone password randomUUID uid row w Hacc Hapi Hrow)
    as (Hu & _ & _ & Hl & _).
  rewrite Hu, Hl, !lookup_insert_eq. by eexists.
Qed.

Lemma successful_login_tokens_agree_witness :
  let w := sample_world "USER" (Some "T0") true ApiHealthy None ∅ in
  ∃ row, users (handleLogin "010-1234-5678" "secret" "T1" w).2 !! "u-alice" = Some row
       ∧ latest_session_id row
           = localStorage (handleLogin "010-1234-5678" "secret" "T1" w).2 !! session_key
       ∧ localStorage (handleLogin "010-1234-5678" "secret" "T1" w).2 !! session_key
           = Some "T1".
Proof.
  apply (successful_login_tokens_agree "010-1234-5678" "secret" "T1" "u-alice"
           (sample_world "USER" (Some "T0") true ApiHealthy None ∅)).
  - reflexivity.
  - reflexivity.
Defined.

(** After such a login the guard of the default landing accepts the
    session as soon as it can read the record. *)
Lemma login_then_guard_accepts phone password randomUUID uid w :
  accounts w !! format_phone (strip_non_digits phone) = Some (password, uid) →
  (fetch_update_session uid randomUUID w).1 = FetchResponse true →
  users_readable w = true →
  guard_decision false
    (auth_session (handleLogin phone password randomUUID w).2)
    (handleLogin phone password randomUUID w).2 = true.
Proof.
  intros Hacc Hmint Hrd. apply mint_success_inv in Hmint as (Hapi & row & Hrow).
  destruct (handleLogin_minted phone password randomUUID uid row w Hacc Hapi Hrow)
    as (Hu & Hrd' & Ha & Hl & _).
  unfold guard_decision. rewrite Ha, Hrd', Hrd, Hu, Hl. simpl.
  rewrite !lookup_insert_eq. apply (decision_match_open
    {| role := role row; latest_session_id := Some randomUUID |}).
Qed.

(** ** Mint failures *)

(** X10. When the mint request cannot be delivered ([fetch] rejects), the login
    is rolled back: the error is shown, the session just established is
    signed out, and neither the record nor the cached token is touched. *)
Lemma handleLogin_mint_rejected phone password randomUUID uid w :
  accounts w !! format_phone (strip_non_digits phone) = Some (password, uid) →
  api w = ApiUnreachable →
  let w' := (handleLogin phone password randomUUID w).2 in
  auth_session w' = None
  ∧ alerts w' = alerts w ++ [session_error_text]
  ∧ users w' = users w
  ∧ localStorage w' = localStorage w
  ∧ location w' = location w
  ∧ calls w' = calls w ++
      [CSignInWithPassword (format_phone (strip_non_digits phone)) password;
       CUpdateSession uid randomUUID; CSignOut].
Proof.
  intros Hacc Hapi.
  destruct w as [db rd acc sess ap ls loc al ld cs]. io_run.
  rewrite Hacc. simpl. rewrite String.eqb_refl. simpl.
  subst ap. simpl. by rewrite <- !app_assoc.
Qed.

Lemma handleLogin_mint_rejected_witness :
  let w := sample_world "USER" (Some "T0") true ApiUnreachable None ∅ in
  let w' := (handleLogin "010-1234-5678" "secret" "T1" w).2 in
  auth_session w' = None
  ∧ alerts w' = alerts w ++ [session_error_text]
  ∧ users w' = users w
  ∧ localStorage w' = localStorage w
  ∧ location w' = location w
  ∧ calls w' = calls w ++
      [CSignInWithPassword (format_phone (strip_non_digits "010-1234-5678")) "secret";
       CUpdateSession "u-alice" "T1"; CSignOut].
Proof.
  apply (handleLogin_mint_rejected "010-1234-5678" "secret" "T1" "u-alice"
           (sample_world "USER" (Some "T0") true ApiUnreachable None ∅)).
  - reflexivity.
  - reflexivity.
Defined.

(** When the endpoint answers the mint request with a non-success status,
    the handler goes on as after a success: the session stays, the new
    identifier is cached, no sign-out is issued, and the record keeps its
    old token. *)
Lemma handleLogin_mint_http_failure phone password randomUUID uid w :
  accounts w !! format_phone (strip_non_digits phone) = Some (password, uid) →
  api w = ApiFailing →
  let w' := (handleLogin phone password randomUUID w).2 in
  auth_session w' = Some {| user := {| user_id := uid |} |}
  ∧ users w' = users w
  ∧ localStorage w' = <[session_key := randomUUID]> (localStorage w)
  ∧ (alerts w' = alerts w ∨ ∃ msg, alerts w' = alerts w ++ [role_error_prefix +:+ msg])
  ∧ calls w' = calls w ++
      [CSignInWithPassword (format_phone (strip_non_digits phone)) password;
       CUpdateSession uid randomUUID; CSelectUsers "role" uid].
Proof.
  intros Hacc Hapi.
  destruct w as [db rd acc sess ap ls loc al ld cs]. io_run.
  rewrite Hacc. simpl. rewrite String.eqb_refl. simpl.
  subst ap. simpl.
  destruct rd; simpl; [destruct (db !! uid) as [row|]; simpl;
                       [destruct (String.eqb (role row) "ADMIN")|]|]; simpl;
    rewrite <- ?app_assoc; repeat split; eauto.
Qed.

(** C1. A login whose mint request is answered with a server error is not
    treated as failed: the handler shows no error, leaves the user signed
    in and on the default landing, and caches [T1] although the record
    still holds [T0].  Only the guard of that landing ends the session,
    as a token mismatch, and still without any message to the user. *)
Lemma mint_http_failure_login_proceeds :
  let w' := (handleLogin "010-1234-5678" "secret" "T1" failing_api_world).2 in
  auth_session w' = Some alice_session
  ∧ alerts w' = []
  ∧ location w' = "/"
  ∧ localStorage w' !! session_key = Some "T1"
  ∧ users w' !! "u-alice" = Some {| role := "USER"; latest_session_id := Some "T0" |}
  ∧ calls w' = [CSignInWithPassword "+821012345678" "secret";
                CUpdateSession "u-alice" "T1"; CSelectUsers "role" "u-alice"]
  ∧ (App w').1 = NavigateTo "/login"
  ∧ alerts (App w').2 = [].
Proof. vm_compute. by repeat split. Qed.

(** ** Role lookup failures *)

(** C5 (as amended). When the role lookup of the login handler fails after
    the credentials were accepted and the token minted, the handler shows
    the lookup error, issues no sign-out, leaves the session established
    and navigates to the default landing [/], never to [/admin]. *)
Theorem login_role_lookup_failure phone password randomUUID uid w :
  accounts w !! format_phone (strip_non_digits phone) = Some (password, uid) →
  (fetch_update_session uid randomUUID w).1 = FetchResponse true →
  users_readable w = false →
  let w' := (handleLogin phone password randomUUID w).2 in
  auth_session w' = Some {| user := {| user_id := uid |} |}
  ∧ location w' = "/"
  ∧ alerts w' = alerts w ++ [role_error_prefix +:+ "Failed to fetch"]
  ∧ calls w' = calls w ++
      [CSignInWithPassword (format_phone (strip_non_digits phone)) password;
       CUpdateSession uid randomUUID; CSelectUsers "role" uid].
Proof.
  intros Hacc Hmint Hrd. apply mint_success_inv in Hmint as (Hapi & row & Hrow).
  destruct (handleLogin_minted phone password randomUUID uid row w Hacc Hapi Hrow)
    as (_ & _ & Ha & _ & Hc & Hloc & Hal).
  rewrite Hrd in Hloc, Hal. by cbv zeta.
Qed.

Lemma login_role_lookup_failure_witness :
  let w' := (handleLogin "010-1234-5678" "secret" "T1" unreadable_world).2 in
  auth_session w' = Some {| user := {| user_id := "u-alice" |} |}
  ∧ location w' = "/"
  ∧ alerts w' = alerts unreadable_world ++ [role_error_prefix +:+ "Failed to fetch"]
  ∧ calls w' = calls unreadable_world ++
      [CSignInWithPassword (format_phone (strip_non_digits "010-1234-5678")) "secret";
       CUpdateSession "u-alice" "T1"; CSelectUsers "role" "u-alice"].
Proof.
  apply (login_role_lookup_failure "010-1234-5678" "secret" "T1" "u-alice" unreadable_world).
  - reflexivity.
  - reflexivity.
  - reflexivity.
Defined.

(** C5 (as stated) fails at the guard: an administrator signs in while the
    [users] table gives no answer; the handler sends them to [/], where the
    guard's own profile lookup fails too, so the guard signs them out and
    redirects to [/login]. *)
Lemma profile_lookup_failure_signs_out :
  let w1 := (handleLogin "010-1234-5678" "secret" "T1" unreadable_world).2 in
  let g := App w1 in
  auth_session w1 = Some alice_session
  ∧ location w1 = "/"
  ∧ g.1 = NavigateTo "/login"
  ∧ auth_session g.2 = None
  ∧ location g.2 = "/login".
Proof. vm_compute. by repeat split. Qed.

(** ** Who writes the user record *)

Lemma validateSession_keeps_users adminOnly s st w :
  users (validateSession adminOnly s st w).2 = users w.
Proof. by rewrite validateSession_run. Qed.

Lemma revalidate_keeps_users children adminOnly session st w :
  users (revalidate children adminOnly session st w).2 = users w.
Proof.
  destruct session as [s|].
  - rewrite revalidate_run. cbv zeta. destruct (guard_decision _ _ _); [|done].
    cbn [snd]. by destruct (commit_frame children
      (set_calls (calls w ++
         [CSelectUsers "role, latest_session_id" (user_id (user s))]) w))
      as (-> & _).
  - unfold revalidate, effect, io_bind, io_ret, render. simpl.
    destruct (isValidSession st); [|done].
    pose proof (commit_frame children w) as (Hu & _).
    unfold io_ret. by destruct (commit children w).
Qed.

Lemma handleLogin_users phone password randomUUID w :
  users (handleLogin phone password randomUUID w).2 = users w
  ∨ ∃ uid,
      CUpdateSession uid randomUUID ∈ calls (handleLogin phone password randomUUID w).2
      ∧ users (handleLogin phone password randomUUID w).2
          = (update_session_endpoint uid randomUUID (users w)).1.
Proof.
  destruct w as [db rd acc sess ap ls loc al ld cs]. io_run.
  destruct (acc !! _) as [[pw uid]|]; simpl; [|by left].
  destruct (String.eqb pw password); simpl; [|by left].
  destruct ap; simpl; [by left| |].
  - left. destruct rd; simpl; [destruct (db !! uid) as [row|]; simpl;
      [destruct (String.eqb (role row) "ADMIN")|]|]; done.
  - right. exists uid.
    destruct (db !! uid) as [row|]; simpl.
    + rewrite lookup_insert_eq.
      destruct rd; simpl; [destruct (String.eqb (role row) "ADMIN")|]; simpl;
        (split; [set_solver | done]).
    + destruct rd; simpl; [destruct (db !! uid) as [row|]; simpl;
        [destruct (String.eqb (role row) "ADMIN")|]|]; simpl;
        (split; [set_solver | done]).
Qed.

(** C9. Validation is read-only on the system of record: after
    [validateSession], after a whole validation by the guard (with or
    without a session), and after a freshly mounted guard, the [users]
    table (every user's role and latest session identifier) is what it
    was.  Logout does not write it either.  The login handler changes it
    only through the mint request: afterwards the table is unchanged, or it
    is what the session-mint endpoint made of it for the request issued in
    this login. *)
Theorem only_the_mint_writes_the_record :
  (∀ adminOnly s st w, users (validateSession adminOnly s st w).2 = users w)
  ∧ (∀ children adminOnly session st w,
       users (revalidate children adminOnly session st w).2 = users w)
  ∧ (∀ children adminOnly session w,
       users (ProtectedRoute children adminOnly session w).2 = users w)
  ∧ (∀ w, users (handleLogout w).2 = users w)
  ∧ (∀ phone password randomUUID w,
       users (handleLogin phone password randomUUID w).2 = users w
       ∨ ∃ uid,
           CUpdateSession uid randomUUID
             ∈ calls (handleLogin phone password randomUUID w).2
           ∧ users (handleLogin phone password randomUUID w).2
               = (update_session_endpoint uid randomUUID (users w)).1).
Proof.
  split; [apply validateSession_keeps_users|].
  split; [apply revalidate_keeps_users|].
  split; [|split; [done | apply handleLogin_users]].
  intros. unfold ProtectedRoute, io_bind at 1.
  change (render children initial_state w) with (LoadingText, w). cbv beta iota.
  unfold io_bind, io_ret.
  pose proof (revalidate_keeps_users children adminOnly session initial_state w).
  by destruct (revalidate _ _ _ _ _).
Qed.

(** * Further properties of the login form *)

(** ** Phone normalisation *)

Lemma strip_non_digits_app a b :
  strip_non_digits (a +:+ b) = strip_non_digits a +:+ strip_non_digits b.
Proof.
  induction a as [|c a IH]; [done|].
  simpl. rewrite IH. by destruct (is_digit c).
Qed.

Lemma strip_non_digits_fixed s :
  digits_only s = true → strip_non_digits s = s.
Proof.
  induction s as [|c s IH]; [done|]. simpl.
  intros [Hc Hs]%andb_prop. rewrite Hc. by rewrite IH.
Qed.

Lemma strip_non_digits_sound s : digits_only (strip_non_digits s) = true.
Proof.
  induction s as [|c s IH]; [done|]. simpl.
  destruct (is_digit c) eqn:Hc; [|done]. simpl. by rewrite Hc.
Qed.

(** X1. Stripping leaves digits only and is idempotent: what it returns
    consists of the characters 0..9, and stripping that again changes
    nothing, so the value kept by the phone field's [onChange] passes
    through the strip of [handleLogin] untouched. *)
Theorem strip_non_digits_idempotent s :
  digits_only (strip_non_digits s) = true
  ∧ strip_non_digits (strip_non_digits s) = strip_non_digits s
  ∧ strip_non_digits (onPhoneChange s) = onPhoneChange s.
Proof.
  pose proof (strip_non_digits_sound s) as Hd.
  split; [done|]. split; by apply strip_non_digits_fixed.
Qed.

(** X2. Separators do not matter: a run of characters without a digit
    (hyphens, blanks, brackets) anywhere inside a number is dropped, and
    what is left is the concatenation of the digits on both sides. *)
Theorem strip_non_digits_drops_separators a sep b :
  strip_non_digits sep = "" →
  strip_non_digits (a +:+ sep +:+ b) = strip_non_digits (a +:+ b).
Proof.
  intros Hsep. rewrite !strip_non_digits_app. by rewrite Hsep.
Qed.

Lemma strip_non_digits_drops_separators_witness :
  strip_non_digits "-" = ""
  ∧ strip_non_digits ("010" +:+ "-" +:+ "1234") = strip_non_digits ("010" +:+ "1234").
Proof.
  split; [reflexivity|].
  apply (strip_non_digits_drops_separators "010" "-" "1234"). reflexivity.
Defined.

(** X3. Whatever is typed, the number sent to the authentication service
    is [+82] followed by digits only, these digits being the typed digits
    with at most one leading zero removed. *)
Theorem format_phone_shape phone :
  ∃ d, format_phone (strip_non_digits phone) = "+82" +:+ d
       ∧ digits_only d = true
       ∧ (strip_non_digits phone = d ∨ strip_non_digits phone = "0" +:+ d).
Proof.
  pose proof (strip_non_digits_sound phone) as Hd.
  destruct (strip_non_digits phone) as [|c rest] eqn:E.
  - exists "". split; [done|]. split; [done | by left].
  - destruct (decide (c = "0"%char)) as [->|Hc].
    + exists rest. simpl in Hd. split; [done|]. split; [done | by right].
    + exists (String c rest). split; [|split; [done | by left]].
      unfold format_phone.
      destruct c as [[] [] [] [] [] [] [] []]; try done.
Qed.

(** X4. The national and the shortened spelling of a number coincide: a
    number with one leading zero is sent as the same number without it
    (provided what follows the zero does not start with a zero itself). *)
Theorem format_phone_leading_zero rest :
  (∀ r, rest ≠ String "0" r) →
  format_phone (String "0" rest) = format_phone rest.
Proof.
  intros Hnz. unfold format_phone at 1.
  destruct rest as [|c r]; [done|].
  destruct (decide (c = "0"%char)) as [->|Hc]; [by destruct (Hnz r)|].
  unfold format_phone. destruct c as [[] [] [] [] [] [] [] []]; try done.
Qed.

Lemma format_phone_leading_zero_witness :
  format_phone (String "0" "1012345678") = format_phone "1012345678".
Proof.
  apply (format_phone_leading_zero "1012345678"). intros r Hr. discriminate Hr.
Defined.

(** X5. A number typed with its country code gets the code twice: the
    plus sign is stripped, no leading zero is found, and [+82] is put in
    front of the [82] already there. *)
Theorem format_phone_country_code_twice rest :
  format_phone (strip_non_digits ("+82" +:+ rest)) = "+8282" +:+ strip_non_digits rest.
Proof. reflexivity. Qed.

(** ** Paths of the login handler *)

(** X6. Rejected credentials stop the login at the first step: the error
    of the authentication service is shown, and nothing else happens: no
    mint request, no token cached, no navigation, no change to the held
    session or to the [users] table; the form leaves its loading state. *)
Theorem handleLogin_credentials_rejected phone password randomUUID w :
  (∀ uid, accounts w !! format_phone (strip_non_digits phone) ≠ Some (password, uid)) →
  let w' := (handleLogin phone password randomUUID w).2 in
  alerts w' = alerts w ++ [error_text invalid_credentials]
  ∧ calls w' = calls w ++
      [CSignInWithPassword (format_phone (strip_non_digits phone)) password]
  ∧ auth_session w' = auth_session w
  ∧ localStorage w' = localStorage w
  ∧ users w' = users w
  ∧ location w' = location w
  ∧ loginForm_loading w' = false.
Proof.
  intros Hrej.
  destruct w as [db rd acc sess ap ls loc al ld cs]. io_run.
  destruct (acc !! _) as [[pw uid]|] eqn:Hacc; simpl; [|done].
  destruct (String.eqb pw password) eqn:Hpw; simpl; [|done].
  apply String.eqb_eq in Hpw as ->. by destruct (Hrej uid).
Qed.

Lemma handleLogin_credentials_rejected_witness :
  let w := sample_world "USER" (Some "T0") true ApiHealthy None ∅ in
  let w' := (handleLogin "010-1234-5678" "wrong" "T1" w).2 in
  alerts w' = alerts w ++ [error_text invalid_credentials]
  ∧ calls w' = calls w ++
      [CSignInWithPassword (format_phone (strip_non_digits "010-1234-5678")) "wrong"]
  ∧ auth_session w' = auth_session w
  ∧ localStorage w' = localStorage w
  ∧ users w' = users w
  ∧ location w' = location w
  ∧ loginForm_loading w' = false.
Proof.
  apply (handleLogin_credentials_rejected "010-1234-5678" "wrong" "T1"
           (sample_world "USER" (Some "T0") true ApiHealthy None ∅)).
  intros uid. vm_compute. discriminate.
Defined.

(** Every run of the login handler, case by case: the fields of the world
    it can touch take one of a few shapes. *)
Lemma handleLogin_cases phone password randomUUID w :
  let w' := (handleLogin phone password randomUUID w).2 in
  loginForm_loading w' = false
  ∧ (localStorage w' = localStorage w
     ∨ localStorage w' = <[session_key := randomUUID]> (localStorage w))
  ∧ (location w' = location w ∨ location w' = "/"
     ∨ (location w' = "/admin"
        ∧ users_readable w = true
        ∧ ∃ uid row, accounts w !! format_phone (strip_non_digits phone)
                       = Some (password, uid)
                     ∧ users w !! uid = Some row ∧ role row = "ADMIN")).
Proof.
  destruct w as [db rd acc sess ap ls loc al ld cs]. io_run.
  destruct (acc !! _) as [[pw uid]|] eqn:Hacc; simpl; [|by auto].
  destruct (String.eqb pw password) eqn:Hpw; simpl; [|by auto].
  apply String.eqb_eq in Hpw as ->.
  destruct ap; simpl; [by auto| |].
  - destruct rd; simpl; [|by auto].
    destruct (db !! uid) as [row|] eqn:Hrow; simpl; [|by auto].
    destruct (String.eqb (role row) "ADMIN") eqn:Hadm; simpl; [|by auto].
    apply String.eqb_eq in Hadm. split; [done|]. split; [by right|].
    right; right. eauto 10.
  - destruct (db !! uid) as [row|] eqn:Hrow; simpl.
    + rewrite lookup_insert_eq. destruct rd; simpl; [|by auto].
      destruct (String.eqb (role row) "ADMIN") eqn:Hadm; simpl; [|by auto].
      apply String.eqb_eq in Hadm. split; [done|]. split; [by right|].
      right; right. eauto 10.
    + rewrite Hrow. destruct rd; simpl; by auto.
Qed.

(** X7. The login form leaves its loading state on every path of the
    handler: rejected credentials, a rejected mint request (the early
    return of the catch branch), a failed or successful role lookup. *)
Theorem handleLogin_clears_loading phone password randomUUID w :
  loginForm_loading (handleLogin phone password randomUUID w).2 = false.
Proof. by destruct (handleLogin_cases phone password randomUUID w) as (? & _). Qed.



(** X9. The handler sends nobody but an administrator to [/admin]: if a
    login ends there (and did not start there), the credentials were
    accepted for a user whose record was read with role [ADMIN]. *)
Theorem handleLogin_admin_landing phone password randomUUID w :
  location (handleLogin phone password randomUUID w).2 = "/admin" →
  location w ≠ "/admin" →
  users_readable w = true
  ∧ ∃ uid row, accounts w !! format_phone (strip_non_digits phone) = Some (password, uid)
               ∧ users w !! uid = Some row ∧ role row = "ADMIN".
Proof.
  intros Hend Hstart.
  destruct (handleLogin_cases phone password randomUUID w)
    as (_ & _ & [Hloc | [Hloc | (_ & Hrd & Hadm)]]).
  - by rewrite Hloc in Hend.
  - by rewrite Hloc in Hend.
  - done.
Qed.

Lemma handleLogin_admin_landing_witness :
  let w := sample_world "ADMIN" None true ApiHealthy None ∅ in
  users_readable w = true
  ∧ ∃ uid row, accounts w !! format_phone (strip_non_digits "010-1234-5678")
                 = Some ("secret", uid)
               ∧ users w !! uid = Some row ∧ role row = "ADMIN".
Proof.
  apply (handleLogin_admin_landing "010-1234-5678" "secret" "T1"
           (sample_world "ADMIN" None true ApiHealthy None ∅)).
  - reflexivity.
  - vm_compute. discriminate.
Defined.

(** * Further properties of the guard and the application shell *)

Lemma decision_true_iff adminOnly profile l :
  decision adminOnly profile l = true ↔
  ∃ p, profile = Some p ∧ latest_session_id p = l
       ∧ (adminOnly = true → role p = "ADMIN").
Proof.
  unfold decision. split.
  - destruct profile as [p|]; [|done]. case_decide; [|done].
    destruct adminOnly; simpl.
    + destruct (String.eqb (role p) "ADMIN") eqn:Hadm; [|done].
      apply String.eqb_eq in Hadm. eauto.
    + intros _. exists p. by repeat split.
  - intros (p & -> & Hl & Hadm). rewrite decide_True by done.
    destruct adminOnly; [|done]. rewrite (Hadm eq_refl). done.
Qed.

Lemma guard_decision_true_iff adminOnly session w :
  guard_decision adminOnly session w = true ↔
  ∃ s row, session = Some s
           ∧ users_readable w = true
           ∧ users w !! user_id (user s) = Some row
           ∧ latest_session_id row = localStorage w !! session_key
           ∧ (adminOnly = true → role row = "ADMIN").
Proof.
  unfold guard_decision. split.
  - destruct session as [s|]; [|done]. rewrite decision_true_iff.
    intros (p & Hp & Hl & Hadm). destruct (users_readable w); [|done].
    exists s, p. by repeat split.
  - intros (s & row & -> & -> & Hrow & Hl & Hadm). rewrite Hrow.
    apply decision_true_iff. eauto.
Qed.

(** X11. What the validator accepts, exactly: [validateSession] sets the
    session valid if and only if the [users] table answered with the
    user's record, the record's latest session identifier is the cached
    token (both may be null), and, on an administrator-only route, the
    record's role is [ADMIN]. *)
Theorem validateSession_accepts_iff adminOnly s st w :
  isValidSession (validateSession adminOnly s st w).1 = true ↔
  users_readable w = true
  ∧ ∃ row, users w !! user_id (user s) = Some row
           ∧ latest_session_id row = localStorage w !! session_key
           ∧ (adminOnly = true → role row = "ADMIN").
Proof.
  rewrite validateSession_run. cbn [fst isValidSession].
  rewrite decision_true_iff. split.
  - intros (p & Hp & Hl & Hadm). destruct (users_readable w); [|done]. eauto.
  - intros (-> & row & Hrow & Hl & Hadm). eauto.
Qed.



Lemma App_Routes w : App w = Routes (auth_session w) w.
Proof. reflexivity. Qed.

(** Once loaded, and told of the current session by [onAuthStateChange],
    [AppContent] renders the route table for the session the
    authentication service holds. *)
Lemma AppContent_follows_auth st w :
  app_loading st = false →
  AppContent_render (onAuthStateChange (auth_session w) st) w =
    (AppShell (bool_decide (is_Some (auth_session w))) (App w).1, (App w).2).
Proof.
  intros Hl. unfold AppContent_render, onAuthStateChange. simpl. rewrite Hl.
  unfold io_bind, io_ret. rewrite App_Routes. by destruct (Routes _ _).
Qed.

(** A guard that accepts shows its page and changes nothing but the trace
    of requests. *)
Lemma ProtectedRoute_accepts p adminOnly s w :
  guard_decision adminOnly (Some s) w = true →
  ProtectedRoute (ShowPage p) adminOnly (Some s) w =
    (ShowPage p,
     set_calls (calls w ++
       [CSelectUsers "role, latest_session_id" (user_id (user s))]) w).
Proof. intros Hd. rewrite ProtectedRoute_run. cbv zeta. by rewrite Hd. Qed.

(** ** From login to the landing page *)



(** ** Two devices *)

(** X14. A later login supersedes an earlier one.  The same account logs
    in on device A with token [t1] and then on device B (another browser
    on the same backend) with a different token [t2], both mints answered
    with success.  From then on every guard on device A, which still
    caches [t1], rejects: A is signed out and sent to [/login]. *)
Theorem later_login_supersedes phone password t1 t2 uid wA wB children adminOnly :
  accounts wA !! format_phone (strip_non_digits phone) = Some (password, uid) →
  (fetch_update_session uid t1 wA).1 = FetchResponse true →
  accounts wB !! format_phone (strip_non_digits phone) = Some (password, uid) →
  api wB = ApiHealthy →
  t1 ≠ t2 →
  let a1 := (handleLogin phone password t1 wA).2 in
  let b1 := (handleLogin phone password t2 (same_backend a1 wB)).2 in
  let a2 := same_backend b1 a1 in
  (ProtectedRoute children adminOnly (auth_session a2) a2).1 = NavigateTo "/login"
  ∧ auth_session (ProtectedRoute children adminOnly (auth_session a2) a2).2 = None
  ∧ localStorage b1 !! session_key = Some t2
  ∧ latest_session_id <$> users b1 !! uid = Some (Some t2).
Proof.
  intros HaccA HmintA HaccB HapiB Hne a1 b1 a2.
  apply mint_success_inv in HmintA as (HapiA & row & Hrow).
  destruct (handleLogin_minted phone password t1 uid row wA HaccA HapiA Hrow)
    as (Hu1 & _ & Ha1 & Hl1 & _).
  fold a1 in Hu1, Ha1, Hl1.
  assert (Hrow1 : users (same_backend a1 wB) !! uid
                  = Some {| role := role row; latest_session_id := Some t1 |}).
  { unfold same_backend. simpl. by rewrite Hu1, lookup_insert_eq. }
  destruct (handleLogin_minted phone password t2 uid _ (same_backend a1 wB)
              HaccB HapiB Hrow1) as (Hu2 & _ & _ & Hl2 & _).
  fold b1 in Hu2, Hl2. simpl in Hu2.
  assert (Hd : guard_decision adminOnly (auth_session a2) a2 = false).
  { destruct (guard_decision adminOnly (auth_session a2) a2) eqn:Hd; [|done].
    apply guard_decision_true_iff in Hd as (s & r & Hs & _ & Hr & Htok & _).
    unfold a2, same_backend in Hs, Hr, Htok. simpl in Hs, Hr, Htok.
    rewrite Ha1 in Hs. injection Hs as <-. simpl in Hr.
    rewrite Hu2, lookup_insert_eq in Hr. injection Hr as <-.
    rewrite Hl1, lookup_insert_eq in Htok. simpl in Htok. congruence. }
  rewrite ProtectedRoute_run. cbv zeta. rewrite Hd. simpl.
  split; [done|]. split; [done|].
  rewrite Hl2, Hu2, !lookup_insert_eq. done.
Qed.

Lemma later_login_supersedes_witness :
  let wA := sample_world "USER" None true ApiHealthy None ∅ in
  let wB := sample_world "USER" None true ApiHealthy None ∅ in
  let a1 := (handleLogin "010-1234-5678" "secret" "T1" wA).2 in
  let b1 := (handleLogin "010-1234-5678" "secret" "T2" (same_backend a1 wB)).2 in
  let a2 := same_backend b1 a1 in
  (ProtectedRoute (ShowPage HomePage) false (auth_session a2) a2).1 = NavigateTo "/login"
  ∧ auth_session (ProtectedRoute (ShowPage HomePage) false (auth_session a2) a2).2 = None
  ∧ localStorage b1 !! session_key = Some "T2"
  ∧ latest_session_id <$> users b1 !! "u-alice" = Some (Some "T2").
Proof.
  apply (later_login_supersedes "010-1234-5678" "secret" "T1" "T2" "u-alice"
           (sample_world "USER" None true ApiHealthy None ∅)
           (sample_world "USER" None true ApiHealthy None ∅)
           (ShowPage HomePage) false).
  - reflexivity.
  - reflexivity.
  - reflexivity.
  - reflexivity.
  - discriminate.
Defined.

(** ** A guard that stays mounted *)

(** X15. A guard that has accepted keeps showing its page when the
    session disappears.  After a validation that accepted, the effect run
    for a null session (signed out elsewhere, session expired) only clears
    the loading flag and returns; the valid flag is not reset, so the next
    render still returns the children: no request is issued, nobody is
    signed out, nothing redirects. *)
Theorem mounted_guard_keeps_page p adminOnly s w w2 :
  guard_decision adminOnly (Some s) w = true →
  let st1 := (revalidate (ShowPage p) adminOnly (Some s) initial_state w).1.2 in
  revalidate (ShowPage p) adminOnly None st1 w2
    = (ShowPage p, {| isValidSession := true; loading := false |}, w2).
Proof.
  intros Hd st1. subst st1. rewrite revalidate_run. cbv zeta. by rewrite Hd.
Qed.

Lemma mounted_guard_keeps_page_witness :
  let w := set_localStorage {[ "session_id" := "T2" ]} superseded_world in
  let st1 := (revalidate (ShowPage HomePage) false (Some alice_session) initial_state w).1.2 in
  revalidate (ShowPage HomePage) false None st1 (set_auth_session None w)
    = (ShowPage HomePage, {| isValidSession := true; loading := false |},
       set_auth_session None w).
Proof.
  apply (mounted_guard_keeps_page HomePage false alice_session
           (set_localStorage {[ "session_id" := "T2" ]} superseded_world)
           (set_auth_session None
              (set_localStorage {[ "session_id" := "T2" ]} superseded_world))).
  reflexivity.
Defined.

(** ** Where a rejected visit ends *)



(** ** Page load *)

(** X17. Reloading the page keeps a valid session.  The first render of
    the application shows its loading text and mounts no route, so no
    guard runs on the placeholder null session; once [getSession] has
    answered, a user on [/] whose cached token is the record's token sees
    the home page with the logout button, after one read of the [users]
    table and without any sign-out. *)
Theorem AppContent_start_keeps_session s row w :
  auth_session w = Some s →
  location w = "/" →
  users_readable w = true →
  users w !! user_id (user s) = Some row →
  latest_session_id row = localStorage w !! session_key →
  AppContent_render AppContent_initial w = (AppLoading, w)
  ∧ AppContent_start w =
      (AppLoading, AppShell true (ShowPage HomePage),
       set_calls (calls w ++
         [CSelectUsers "role, latest_session_id" (user_id (user s))]) w).
Proof.
  intros Hs Hloc Hrd Hrow Htok. split; [reflexivity|].
  assert (Hd : guard_decision false (Some s) w = true).
  { apply guard_decision_true_iff. exists s, row. by repeat split. }
  unfold AppContent_start, AppContent_effect, getSession, io_bind at 1 2 3.
  simpl. rewrite Hs. unfold io_ret at 1. unfold AppContent_render. simpl.
  unfold io_bind, Routes. rewrite Hloc. simpl.
  by rewrite (ProtectedRoute_accepts HomePage false s w Hd).
Qed.

Lemma AppContent_start_keeps_session_witness :
  let w := set_location "/" never_minted_world in
  AppContent_render AppContent_initial w = (AppLoading, w)
  ∧ AppContent_start w =
      (AppLoading, AppShell true (ShowPage HomePage),
       set_calls (calls w ++
         [CSelectUsers "role, latest_session_id" (user_id (user alice_session))]) w).
Proof.
  apply (AppContent_start_keeps_session alice_session
           {| role := "USER"; latest_session_id := None |}
           (set_location "/" never_minted_world)); reflexivity.
Defined.

(** ** After logout *)

(** X18. Logout holds: right after [handleLogout] the application shows
    the login page without the guard running, and a later visit to [/] or
    [/admin] is redirected to [/login] without any read of the [users]
    table, whatever the record and the browser hold. *)
Theorem logout_then_app w :
  let w1 := (handleLogout w).2 in
  App w1 = (ShowPage LoginPage, w1)
  ∧ (App (set_location "/" w1)).1 = NavigateTo "/login"
  ∧ (App (set_location "/admin" w1)).1 = NavigateTo "/login"
  ∧ calls (App (set_location "/" w1)).2 = calls w ++ [CSignOut; CSignOut]
  ∧ calls (App (set_location "/admin" w1)).2 = calls w ++ [CSignOut; CSignOut].
Proof.
  rewrite handleLogout_run. cbn [snd]. repeat split; simpl; by rewrite <- ?app_assoc.
Qed.

End Masil.
